(** * Webhook-driven order reconciliation of the GrabNGo canteen backend

    Shallow embedding of the Express/Supabase backend in [src/]. The
    repository keeps many revisions of the same [index.js]; each revision
    whose behaviour a property depends on is embedded in a module of its
    own, named after the file (and the block inside it) it comes from:

    - [Idx1]   : [src/index.js], first block (lines 1-185);
    - [Idx2]   : [src/index.js], second block (lines 187-460);
    - [P000]   : [src/unnamed/part_000];
    - [P003]   : [src/unnamed/part_003];
    - [P005a]  : [src/unnamed/part_005], first block (lines 1-241);
    - [P005b]  : [src/unnamed/part_005], second block (lines 243-531);
    - [P008]   : [src/unnamed/part_008];
    - [P009]   : [src/unnamed/part_009] (signature check only).

    Node's [crypto] (HMAC-SHA256, Base64 digests), [Buffer#toString('utf8')]
    and [Date.now()] are embedded as executable definitions; the Supabase
    tables are finite maps keyed by their primary keys, and the
    [order_items] table is the list of its rows in insertion order. *)

From Stdlib Require Import ZArith List String Ascii Lia.
From stdpp Require Import base gmap strings list.

Open Scope Z_scope.
#[local] Set Warnings "-register-all".

(* ------------------------------------------------------------------ *)
(** ** Bytes and JavaScript strings *)

Module Bytes.

(** A byte is a [Z] in [0, 256); a JavaScript string is modelled as the
    list of its code points. *)
Definition bytes := list Z.
Definition jsstr := list Z.

(** The bytes of a Rocq string (each [ascii] is one byte). *)
Fixpoint of_string (s : string) : bytes :=
  match s with
  | EmptyString => []
  | String c r => Z.of_nat (nat_of_ascii c) :: of_string r
  end.

Fixpoint to_string (l : bytes) : string :=
  match l with
  | [] => EmptyString
  | b :: r => String (ascii_of_nat (Z.to_nat b)) (to_string r)
  end.

(** HTTP header values reach JavaScript latin1-decoded: one code point
    per byte. *)
Definition latin1_decode (s : string) : jsstr := of_string s.

(** [Buffer.from(str)] / [hmac.update(str)]: UTF-8 encoding of a string. *)
Definition utf8_encode_cp (c : Z) : bytes :=
  if c <? 128 then [c]
  else if c <? 2048 then
    [Z.lor 192 (Z.shiftr c 6); Z.lor 128 (Z.land c 63)]
  else if c <? 65536 then
    [Z.lor 224 (Z.shiftr c 12); Z.lor 128 (Z.land (Z.shiftr c 6) 63);
     Z.lor 128 (Z.land c 63)]
  else
    [Z.lor 240 (Z.shiftr c 18); Z.lor 128 (Z.land (Z.shiftr c 12) 63);
     Z.lor 128 (Z.land (Z.shiftr c 6) 63); Z.lor 128 (Z.land c 63)].

Definition utf8_encode (s : jsstr) : bytes := flat_map utf8_encode_cp s.

(** [Buffer#toString('utf8')]: the WHATWG UTF-8 decoder, which replaces
    every maximal ill-formed subsequence by U+FFFD. The state is
    (bytes needed, bytes seen, code point so far, lower bound, upper bound). *)
Definition replacement : Z := 65533.

Record dec_state := DecState {
  needed : Z; seen : Z; cp : Z; lower : Z; upper : Z }.

Definition dec_init : dec_state := DecState 0 0 0 128 191.

(** Handling of a byte when no sequence is in progress. *)
Definition dec_start (b : Z) : dec_state * list Z :=
  if b <=? 127 then (dec_init, [b])
  else if (194 <=? b) && (b <=? 223) then
    (DecState 1 0 (Z.land b 31) 128 191, [])
  else if (224 <=? b) && (b <=? 239) then
    (DecState 2 0 (Z.land b 15) (if b =? 224 then 160 else 128)
              (if b =? 237 then 159 else 191), [])
  else if (240 <=? b) && (b <=? 244) then
    (DecState 3 0 (Z.land b 7) (if b =? 240 then 144 else 128)
              (if b =? 244 then 143 else 191), [])
  else (dec_init, [replacement]).

Definition dec_step (st : dec_state) (b : Z) : dec_state * list Z :=
  if needed st =? 0 then dec_start b
  else if negb ((lower st <=? b) && (b <=? upper st)) then
    (* the byte is pushed back and decoded afresh *)
    let '(st', out) := dec_start b in (st', replacement :: out)
  else
    let c := Z.lor (Z.shiftl (cp st) 6) (Z.land b 63) in
    if seen st + 1 =? needed st then (dec_init, [c])
    else (DecState (needed st) (seen st + 1) c 128 191, []).

Fixpoint dec_loop (st : dec_state) (l : bytes) : jsstr :=
  match l with
  | [] => if needed st =? 0 then [] else [replacement]
  | b :: r => let '(st', out) := dec_step st b in out ++ dec_loop st' r
  end.

Definition utf8_decode (l : bytes) : jsstr := dec_loop dec_init l.

End Bytes.

(* ------------------------------------------------------------------ *)
(** ** SHA-256, HMAC-SHA256 and Base64 (Node's [crypto]) *)

Module Crypto.
Import Bytes.

Definition w32 (x : Z) : Z := Z.land x (2 ^ 32 - 1).
Definition rotr (n x : Z) : Z :=
  Z.lor (Z.shiftr x n) (w32 (Z.shiftl x (32 - n))).
Definition ch (x y z : Z) := Z.lxor (Z.land x y) (Z.land (Z.lxor x (2^32-1)) z).
Definition maj (x y z : Z) := Z.lxor (Z.lxor (Z.land x y) (Z.land x z)) (Z.land y z).
Definition bsig0 x := Z.lxor (Z.lxor (rotr 2 x) (rotr 13 x)) (rotr 22 x).
Definition bsig1 x := Z.lxor (Z.lxor (rotr 6 x) (rotr 11 x)) (rotr 25 x).
Definition ssig0 x := Z.lxor (Z.lxor (rotr 7 x) (rotr 18 x)) (Z.shiftr x 3).
Definition ssig1 x := Z.lxor (Z.lxor (rotr 17 x) (rotr 19 x)) (Z.shiftr x 10).

(** The constants of FIPS 180-4, section 4.2.2 and 5.3.3: the first 32 bits
    of the fractional parts of the cube roots (round constants) and square
    roots (initial state) of the first primes. *)
Definition is_prime (n : nat) : bool :=
  (2 <=? n)%nat && forallb (fun d => negb (Nat.eqb (n mod d) 0)) (seq 2 (n - 2)).

Definition first_primes (k : nat) : list Z :=
  map Z.of_nat (firstn k (filter is_prime (seq 2 400))).

(** Integer cube root by bisection on [lo, hi). *)
Fixpoint icbrt_in (fuel : nat) (n lo hi : Z) : Z :=
  match fuel with
  | O => lo
  | S f =>
      if Z.leb (hi - lo) 1 then lo
      else let mid := (lo + hi) / 2 in
           if Z.leb (mid * mid * mid) n then icbrt_in f n mid hi
           else icbrt_in f n lo mid
  end.

Definition frac32_cbrt (p : Z) : Z := icbrt_in 64 (p * 2 ^ 96) 0 (2 ^ 40) mod 2 ^ 32.
Definition frac32_sqrt (p : Z) : Z := Z.sqrt (p * 2 ^ 64) mod 2 ^ 32.

Definition K256 : list Z := Eval vm_compute in map frac32_cbrt (first_primes 64).

Record hstate := HState { ha : Z; hb : Z; hc : Z; hd : Z; he : Z; hf : Z; hg : Z; hh : Z }.

Definition H0 : hstate := Eval vm_compute in
  match map frac32_sqrt (first_primes 8) with
  | [a; b; c; d; e; f; g; h] => HState a b c d e f g h
  | _ => HState 0 0 0 0 0 0 0 0
  end.

(** Big-endian words of a 64-byte block. *)
Fixpoint be_words (l : bytes) : list Z :=
  match l with
  | b0 :: b1 :: b2 :: b3 :: r =>
      Z.lor (Z.shiftl b0 24) (Z.lor (Z.shiftl b1 16) (Z.lor (Z.shiftl b2 8) b3))
        :: be_words r
  | _ => []
  end.

(** Message schedule, built newest-first: [rw] holds W[t-1], W[t-2], ... *)
Fixpoint schedule (n : nat) (rw : list Z) : list Z :=
  match n with
  | O => rw
  | S n' =>
      let w (t : nat) := nth (t - 1)%nat rw 0 in
      schedule n' (w32 (ssig1 (w 2%nat) + w 7%nat + ssig0 (w 15%nat) + w 16%nat) :: rw)
  end.

Definition round (s : hstate) (kw : Z * Z) : hstate :=
  let '(k, w) := kw in
  let t1 := w32 (hh s + bsig1 (he s) + ch (he s) (hf s) (hg s) + k + w) in
  let t2 := w32 (bsig0 (ha s) + maj (ha s) (hb s) (hc s)) in
  HState (w32 (t1 + t2)) (ha s) (hb s) (hc s) (w32 (hd s + t1)) (he s) (hf s) (hg s).

Definition compress (s : hstate) (block : bytes) : hstate :=
  let ws := rev (schedule 48 (rev (be_words block))) in
  let s' := fold_left round (combine K256 ws) s in
  HState (w32 (ha s + ha s')) (w32 (hb s + hb s')) (w32 (hc s + hc s'))
         (w32 (hd s + hd s')) (w32 (he s + he s')) (w32 (hf s + hf s'))
         (w32 (hg s + hg s')) (w32 (hh s + hh s')).

Fixpoint be_bytes (n : nat) (x : Z) : bytes :=
  match n with
  | O => []
  | S n' => be_bytes n' (Z.shiftr x 8) ++ [Z.land x 255]
  end.

Definition pad (m : bytes) : bytes :=
  let len := Z.of_nat (length m) in
  m ++ [128] ++ repeat 0 (Z.to_nat ((55 - len) mod 64)) ++ be_bytes 8 (len * 8).

Fixpoint blocks (fuel : nat) (s : hstate) (l : bytes) : hstate :=
  match fuel with
  | O => s
  | S f => match l with
           | [] => s
           | _ => blocks f (compress s (firstn 64 l)) (skipn 64 l)
           end
  end.

Definition word_bytes (x : Z) : bytes :=
  [Z.land (Z.shiftr x 24) 255; Z.land (Z.shiftr x 16) 255;
   Z.land (Z.shiftr x 8) 255; Z.land x 255].

Definition digest (s : hstate) : bytes :=
  word_bytes (ha s) ++ word_bytes (hb s) ++ word_bytes (hc s) ++ word_bytes (hd s) ++
  word_bytes (he s) ++ word_bytes (hf s) ++ word_bytes (hg s) ++ word_bytes (hh s).

Definition sha256 (m : bytes) : bytes :=
  let p := pad m in digest (blocks (length p) H0 p).

(** HMAC (RFC 2104) over SHA-256, block size 64. *)
Definition hmac_sha256 (key msg : bytes) : bytes :=
  let k := if 64 <? Z.of_nat (length key) then sha256 key else key in
  let k0 := k ++ repeat 0 (64 - length k)%nat in
  let ipad := map (Z.lxor 0x36) k0 in
  let opad := map (Z.lxor 0x5c) k0 in
  sha256 (opad ++ sha256 (ipad ++ msg)).

(** [digest('base64')] and [digest('hex')]. *)
Definition b64_alphabet : string :=
  "ABCDEFGHIJKLMNOPQRSTUVWXYZabcdefghijklmnopqrstuvwxyz0123456789+/".
Definition b64_char (n : Z) : ascii :=
  match String.get (Z.to_nat n) b64_alphabet with Some c => c | None => "A"%char end.

Fixpoint base64 (l : bytes) : string :=
  match l with
  | b0 :: b1 :: b2 :: r =>
      String (b64_char (Z.shiftr b0 2))
        (String (b64_char (Z.lor (Z.shiftl (Z.land b0 3) 4) (Z.shiftr b1 4)))
          (String (b64_char (Z.lor (Z.shiftl (Z.land b1 15) 2) (Z.shiftr b2 6)))
            (String (b64_char (Z.land b2 63)) (base64 r))))
  | [b0; b1] =>
      String (b64_char (Z.shiftr b0 2))
        (String (b64_char (Z.lor (Z.shiftl (Z.land b0 3) 4) (Z.shiftr b1 4)))
          (String (b64_char (Z.shiftl (Z.land b1 15) 2)) "="))
  | [b0] =>
      String (b64_char (Z.shiftr b0 2))
        (String (b64_char (Z.shiftl (Z.land b0 3) 4)) "==")
  | [] => EmptyString
  end.

Definition hex_char (n : Z) : ascii :=
  match String.get (Z.to_nat n) "0123456789abcdef" with Some c => c | None => "0"%char end.
Fixpoint hex (l : bytes) : string :=
  match l with
  | [] => EmptyString
  | b :: r => String (hex_char (Z.shiftr b 4)) (String (hex_char (Z.land b 15)) (hex r))
  end.

End Crypto.

(* ------------------------------------------------------------------ *)
(** ** Parsed JSON values and the JavaScript operations the handlers use *)

Module Json.

(** A value produced by [JSON.parse]; [undefined] is [None] in
    [option json]. Numbers are integers here (amounts and ids). *)
Inductive json :=
  | JNull
  | JBool (b : bool)
  | JNum (n : Z)
  | JStr (s : string)
  | JArr (l : list json)
  | JObj (kvs : list (string * json)).

(** Property access [v.k] / [v?.k]: the last binding wins, as with
    [JSON.parse] on duplicate keys; non-objects have no such property. *)
Definition prop (v : option json) (k : string) : option json :=
  match v with
  | Some (JObj kvs) =>
      match find (fun kv => String.eqb (fst kv) k) (rev kvs) with
      | Some (_, x) => Some x
      | None => None
      end
  | _ => None
  end.

Definition truthy (v : option json) : bool :=
  match v with
  | None | Some JNull => false
  | Some (JBool b) => b
  | Some (JNum n) => negb (n =? 0)
  | Some (JStr s) => negb (String.eqb s "")
  | Some (JArr _) | Some (JObj _) => true
  end.

(** [a || b] *)
Definition jor (a b : option json) : option json := if truthy a then a else b.

Fixpoint nat_digits (fuel : nat) (n : Z) (acc : string) : string :=
  match fuel with
  | O => acc
  | S f =>
      let d := String (ascii_of_nat (48 + Z.to_nat (n mod 10))) acc in
      if n <? 10 then d else nat_digits f (n / 10) d
  end.

(** Decimal rendering of an integer, as [String(n)] and template strings do. *)
Definition Z_to_dec (n : Z) : string :=
  if n <? 0 then String "-" (nat_digits 64 (- n) "")
  else nat_digits 64 n "".

(** [String(v)] *)
Fixpoint js_String_j (v : json) : string :=
  match v with
  | JNull => "null"
  | JBool true => "true"
  | JBool false => "false"
  | JNum n => Z_to_dec n
  | JStr s => s
  | JArr l =>
      let fix go l := match l with
                      | [] => ""
                      | [x] => match x with JNull => "" | _ => js_String_j x end
                      | x :: r => ((match x with JNull => "" | _ => js_String_j x end)
                                     ++ "," ++ go r)%string
                      end
      in go l
  | JObj _ => "[object Object]"
  end.

Definition js_String (v : option json) : string :=
  match v with None => "undefined" | Some x => js_String_j x end.

(** Strict equality with a string literal: [v === 'LIT']. *)
Definition is_str (v : option json) (lit : string) : bool :=
  match v with Some (JStr s) => String.eqb s lit | _ => false end.

(** ASCII [toUpperCase]. *)
Definition up_ascii (c : ascii) : ascii :=
  let n := nat_of_ascii c in
  if (97 <=? n)%nat && (n <=? 122)%nat then ascii_of_nat (n - 32) else c.
Fixpoint upper (s : string) : string :=
  match s with EmptyString => EmptyString | String c r => String (up_ascii c) (upper r) end.

(** [v.toUpperCase()]: only strings have the method; [None] is the
    [TypeError] thrown otherwise. *)
Definition js_upper (v : option json) : option string :=
  match v with Some (JStr s) => Some (upper s) | _ => None end.

Definition digit_val (c : ascii) : option Z :=
  let n := nat_of_ascii c in
  if (48 <=? n)%nat && (n <=? 57)%nat then Some (Z.of_nat n - 48) else None.

Fixpoint parse_digits (s : string) (acc : Z) : option Z :=
  match s with
  | EmptyString => Some acc
  | String c r => match digit_val c with
                  | Some d => parse_digits r (acc * 10 + d)
                  | None => None
                  end
  end.

(** [Number(v)]; [None] is [NaN]. Numeric strings are decimal integers. *)
Definition js_Number (v : option json) : option Z :=
  match v with
  | None => None
  | Some JNull => Some 0
  | Some (JBool b) => Some (if b then 1 else 0)
  | Some (JNum n) => Some n
  | Some (JStr s) => if String.eqb s "" then Some 0 else parse_digits s 0
  | Some (JArr []) => Some 0
  | Some _ => None
  end.

Definition is_array (v : option json) : bool :=
  match v with Some (JArr _) => true | _ => false end.

Definition str_in (s : string) (l : list string) : bool :=
  existsb (String.eqb s) l.

(** [s.includes(t)] *)
Fixpoint includes (s t : string) : bool :=
  String.prefix t s ||
  match s with EmptyString => false | String _ r => includes r t end.

(** [s.toLowerCase()], ASCII. *)
Definition low_ascii (c : ascii) : ascii :=
  let n := nat_of_ascii c in
  if (65 <=? n)%nat && (n <=? 90)%nat then ascii_of_nat (n + 32) else c.
Fixpoint lower (s : string) : string :=
  match s with EmptyString => EmptyString | String c r => String (low_ascii c) (lower r) end.

End Json.

(* ------------------------------------------------------------------ *)
(** ** The Supabase tables and the request-scoped handler monad *)

Module Store.
Import Json.

(** A row of [orders]; the columns are the union of those the revisions
    write ([total_amount] and [raw_cart_data] only exist in the revisions
    that pre-record the order at creation). *)
Record order_row := OrderRow {
  o_user_id : option string;
  o_user_email : option string;
  o_status : string;
  o_payment_id : option string;
  o_paid_at : option Z;
  o_total_amount : option Z;
  o_raw_cart_data : option json;
  o_created_at : option Z }.

(** A row of [order_items]; [i_price = None] is [NaN]. *)
Record item_row := ItemRow {
  i_order_id : string;
  i_item_id : option string;
  i_qty : option json;
  i_price : option Z }.

(** A row of [pending_orders] (the Pending Snapshot). *)
Record snapshot := Snapshot {
  p_user_id : option string;
  p_user_email : option string;
  p_amount : option Z;
  p_cart : option json;
  p_created_at : Z }.

(** A row of the payment ledger ([payments] or [order_payments]). *)
Record pay_row := PayRow {
  pay_order_id : string;
  pay_amount : option Z;
  pay_status : string;
  pay_raw : option json }.

(** The database: each keyed table is a map from its primary key (the
    text the key column holds); [order_items] has a synthetic key and is
    the list of its rows. *)
Record store := Store {
  orders : gmap string order_row;
  order_items : list item_row;
  pending_orders : gmap string snapshot;
  payments : gmap string pay_row;
  order_payments : gmap string pay_row }.

(** A value written to a text column: [null]/[undefined] become SQL NULL. *)
Definition col_text (v : option json) : option string :=
  match v with None | Some JNull => None | Some x => Some (js_String_j x) end.

Definition set_orders (o : gmap string order_row) (s : store) : store :=
  Store o (order_items s) (pending_orders s) (payments s) (order_payments s).
Definition set_items (l : list item_row) (s : store) : store :=
  Store (orders s) l (pending_orders s) (payments s) (order_payments s).
Definition set_pending (p : gmap string snapshot) (s : store) : store :=
  Store (orders s) (order_items s) p (payments s) (order_payments s).
Definition set_payments (p : gmap string pay_row) (s : store) : store :=
  Store (orders s) (order_items s) (pending_orders s) p (order_payments s).
Definition set_order_payments (p : gmap string pay_row) (s : store) : store :=
  Store (orders s) (order_items s) (pending_orders s) (payments s) p.

(** The rows of [order_items] belonging to an order. *)
Definition items_of (id : string) (s : store) : list item_row :=
  filter (fun r => i_order_id r = id) (order_items s).

(** JavaScript truthiness of a query result ([data] or [error]). *)
Definition present {A} (o : option A) : bool :=
  match o with Some _ => true | None => false end.

(** The HTTP response sent back to the caller. *)
Record response := Resp { code : Z; rbody : string }.

(** Outcome of request-scoped code: a value, an early [return res...],
    or a thrown exception. *)
Inductive outcome (A : Type) :=
  | Ok (a : A)
  | Exit (r : response)
  | Throw (e : string).
Arguments Ok {A}. Arguments Exit {A}. Arguments Throw {A}.

(** Database writes are not rolled back: the store is threaded through
    early returns and exceptions alike. *)
Definition M (A : Type) : Type := store -> outcome A * store.

#[global] Instance M_ret : MRet M := fun A a s => (Ok a, s).
#[global] Instance M_bind : MBind M := fun A B f m s =>
  match m s with
  | (Ok a, s') => f a s'
  | (Exit r, s') => (Exit r, s')
  | (Throw e, s') => (Throw e, s')
  end.

Definition reply {A} (c : Z) (b : string) : M A := fun s => (Exit (Resp c b), s).
Definition throw {A} (e : string) : M A := fun s => (Throw e, s).
Definition gets {A} (f : store -> A) : M A := fun s => (Ok (f s), s).
Definition modify (f : store -> store) : M unit := fun s => (Ok tt, f s).

(** [try { body } catch (e) { handler }] around a whole route. *)
Definition run (body : M response) (on_error : string -> response)
    (s : store) : response * store :=
  match body s with
  | (Ok r, s') | (Exit r, s') => (r, s')
  | (Throw e, s') => (on_error e, s')
  end.

(** PostgREST's unique-violation message. *)
Definition quote : string := String (ascii_of_nat 34) EmptyString.
Definition dup_msg (table : string) : string :=
  "duplicate key value violates unique constraint " ++ quote ++ table ++ "_pkey" ++ quote.

(** [.from('orders').select(..).eq('id', id).maybeSingle()]. *)
Definition select_order (id : string) : M (option order_row) :=
  gets (fun s => orders s !! id).

(** [.from('orders').insert([row])]: fails on an existing primary key. *)
Definition insert_order (id : string) (row : order_row) : M (option string) :=
  fun s => match orders s !! id with
           | Some _ => (Ok (Some (dup_msg "orders")), s)
           | None => (Ok None, set_orders (<[id := row]> (orders s)) s)
           end.

(** [.from('orders').update(f).eq('id', id)] with extra filters [cond]. *)
Definition update_order (id : string) (cond : order_row -> bool)
    (f : order_row -> order_row) : M unit :=
  modify (fun s => match orders s !! id with
                   | Some r => if cond r then set_orders (<[id := f r]> (orders s)) s else s
                   | None => s
                   end).

(** [.from('orders').upsert([row], { onConflict: 'id' })]: the columns the
    row carries overwrite those of an existing row. *)
Definition upsert_order (id : string) (f : option order_row -> order_row) : M unit :=
  modify (fun s => set_orders (<[id := f (orders s !! id)]> (orders s)) s).

Definition select_pending (id : string) : M (option snapshot) :=
  gets (fun s => pending_orders s !! id).
Definition delete_pending (id : string) : M unit :=
  modify (fun s => set_pending (delete id (pending_orders s)) s).

(** [.from('order_items').insert(rows)]: rows get fresh synthetic ids. *)
Definition insert_items (rows : list item_row) : M (option string) :=
  fun s => (Ok None, set_items (order_items s ++ rows) s).

(** [.from('order_items').upsert(rows, { onConflict: 'order_id,item_id' })]:
    a row replaces the row with the same (order id, item id), else it is
    appended; a batch that hits one key twice is refused by PostgreSQL. *)
Definition same_item_key (a b : item_row) : bool :=
  String.eqb (i_order_id a) (i_order_id b) &&
  match i_item_id a, i_item_id b with
  | Some x, Some y => String.eqb x y
  | _, _ => false
  end.

Definition upsert_one (l : list item_row) (r : item_row) : list item_row :=
  if existsb (same_item_key r) l
  then map (fun x => if same_item_key r x then r else x) l
  else l ++ [r].

Fixpoint batch_has_dup (rows : list item_row) : bool :=
  match rows with
  | [] => false
  | r :: rs => existsb (same_item_key r) rs || batch_has_dup rs
  end.

Definition upsert_items (rows : list item_row) : M (option string) :=
  fun s => if batch_has_dup rows
           then (Ok (Some "ON CONFLICT DO UPDATE command cannot affect row a second time"), s)
           else (Ok None, set_items (fold_left upsert_one rows (order_items s)) s).

(** [.select('id').eq('id', id).single()]: an error unless exactly one row. *)
Definition select_order_single (id : string) : M (option order_row * option string) :=
  gets (fun s => match orders s !! id with
                 | Some r => (Some r, None)
                 | None => (None, Some "PGRST116")
                 end).

(** [.select('id', { count: 'exact', head: true }).eq('order_id', id)]. *)
Definition count_items (id : string) : M Z :=
  gets (fun s => Z.of_nat (length (items_of id s))).

End Store.

(* ------------------------------------------------------------------ *)
(** ** Requests and the process environment *)

Module Http.
Import Json Bytes.

(** An inbound request: lower-cased header names with their values, the
    exact body bytes, and what [JSON.parse] makes of the body text
    ([None] when it throws). *)
Record request := Req {
  headers : list (string * string);
  raw_body : bytes;
  parsed : option json }.

(** [req.headers[name]] / [req.header(name)]. *)
Definition header (r : request) (name : string) : option string :=
  match find (fun kv => String.eqb (fst kv) name) (headers r) with
  | Some (_, v) => Some v
  | None => None
  end.

(** [x || ''] on an optional header. *)
Definition or_empty (v : option string) : string :=
  match v with Some x => x | None => ""%string end.

(** [`${v}`] of an optional header ([undefined] when absent). *)
Definition tmpl (v : option string) : string :=
  match v with Some x => x | None => "undefined"%string end.

(** [process.env] and [Date.now()] as seen by one request, plus the
    failure the database reports for the ledger insert when it fails for
    an infrastructure reason. *)
Record env := Env {
  now : Z;
  client_secret : option string;
  webhook_secret : option string;
  ledger_fault : option string }.

(** An environment variable as the HMAC key: the variable's bytes. *)
Definition key_of (s : string) : bytes := of_string s.

(** [crypto.createHmac('sha256', secret).update(ts + body).digest('base64')]
    where [body] is the request body decoded as UTF-8 ([toString()]) and
    [update] re-encodes the concatenated string as UTF-8. *)
Definition cashfree_sig (secret ts : string) (body : bytes) : string :=
  Crypto.base64 (Crypto.hmac_sha256 (key_of secret)
                   (utf8_encode (latin1_decode ts ++ utf8_decode body))).

End Http.

(* ------------------------------------------------------------------ *)
(** ** [src/index.js], second block: ledger + conditional status update *)

Module Idx2.
Import Json Bytes Crypto Store Http.

(** [crypto.timingSafeEqual(a, b)]: [None] is the [RangeError] thrown
    when the buffers differ in length. *)
Definition timingSafeEqual (a b : bytes) : option bool :=
  if Nat.eqb (length a) (length b) then Some (forallb (fun p => fst p =? snd p) (combine a b))
  else None.

(** [verifyCashfreeSignature(rawBody, signatureHeader, timestampHeader)],
    lines 307-330. *)
Definition verifyCashfreeSignature (e : env) (rawBody : bytes)
    (signatureHeader timestampHeader : string) : bool :=
  let secret := or_empty (client_secret e) in
  if String.eqb secret "" || String.eqb signatureHeader "" || String.eqb timestampHeader ""
  then false
  else
    let computed := cashfree_sig secret timestampHeader rawBody in
    match timingSafeEqual (utf8_encode (latin1_decode computed))
                          (utf8_encode (latin1_decode signatureHeader)) with
    | Some b => b
    | None => String.eqb computed signatureHeader
    end.

(** [.from('order_payments').insert([row])]. *)
Definition insert_order_payment (fault : option string) (key : string)
    (row : pay_row) : M (option string) :=
  fun s => match fault with
           | Some msg => (Ok (Some msg), s)
           | None => match order_payments s !! key with
                     | Some _ => (Ok (Some (dup_msg "order_payments")), s)
                     | None => (Ok None, set_order_payments (<[key := row]> (order_payments s)) s)
                     end
           end.

Definition success_tokens : list string := ["SUCCESS"; "PAID"; "AUTHORIZED"; "CAPTURED"].

Definition mark_preparing (payment_id : string) (t : Z) (r : order_row) : order_row :=
  OrderRow (o_user_id r) (o_user_email r) "Preparing" (Some payment_id) (Some t)
           (o_total_amount r) (o_raw_cart_data r) (o_created_at r).

Definition paid_at_null (r : order_row) : bool :=
  match o_paid_at r with None => true | Some _ => false end.

(** The fields the handler extracts from the parsed payload (lines 234-238);
    [None] for the status is the [TypeError] of [toUpperCase] on a
    non-string. *)
Definition extract (payload : json)
    : option json * option json * option string * option Z :=
  let data := jor (prop (Some payload) "data") (Some payload) in
  let orderId := jor (prop (prop data "order") "order_id") (prop data "order_id") in
  let paymentId := jor (prop (prop data "payment") "cf_payment_id") (prop data "cf_payment_id") in
  let status := js_upper (jor (jor (prop (prop data "payment") "payment_status")
                                   (prop data "order_status")) (Some (JStr ""))) in
  let amount := js_Number (jor (jor (prop (prop data "payment") "payment_amount")
                                    (prop data "order_amount")) (Some (JNum 0))) in
  (orderId, paymentId, status, amount).

(** [POST /api/cashfree/webhook], lines 211-289. *)
Definition webhook (e : env) (req : request) : store -> response * store :=
  run (
    let signature := or_empty (header req "x-webhook-signature") in
    let timestamp := or_empty (header req "x-webhook-timestamp") in
    if String.eqb signature "" then reply 200 "OK" else
    if negb (verifyCashfreeSignature e (raw_body req) signature timestamp)
    then reply 200 "OK" else
    match parsed req with
    | None => throw "SyntaxError"
    | Some payload =>
      let '(orderId, paymentId, ostatus, amount) := extract payload in
      match ostatus with
      | None => throw "TypeError"
      | Some status =>
        if negb (truthy orderId) || negb (truthy paymentId) then reply 200 "OK" else
        payErr ← insert_order_payment (ledger_fault e) (js_String paymentId)
                   (PayRow (js_String orderId) amount
                           (if String.eqb status "" then "UNKNOWN" else status)
                           (Some payload));
        (* a duplicate and any other insert error are both only logged *)
        (if str_in status success_tokens then
           update_order (js_String orderId) paid_at_null
                        (mark_preparing (js_String paymentId) (now e))
         else mret tt) ;;
        reply 200 "OK"
      end
    end)
  (fun _ => Resp 200 "OK").

End Idx2.

Module Idx2Routes.
Import Json Store Http Idx2.

(** Strict property access [v.k]: [None] is the [TypeError] on
    [null]/[undefined]. *)
Definition sprop (v : option json) (k : string) : option (option json) :=
  match v with None | Some JNull => None | Some _ => Some (prop v k) end.

Fixpoint map_throw {A B} (f : A -> option B) (l : list A) : option (list B) :=
  match l with
  | [] => Some []
  | x :: r => match f x, map_throw f r with
              | Some y, Some ys => Some (y :: ys)
              | _, _ => None
              end
  end.

(** The line items create-order derives from one cart line (line 365). *)
Definition item_of_line (oid : string) (ci : json) : option item_row :=
  match sprop (Some ci) "id", sprop (Some ci) "quantity", sprop (Some ci) "price" with
  | Some cid, Some cq, Some cp =>
      let item := prop (Some ci) "item" in
      Some (ItemRow oid (col_text (jor cid (prop item "id")))
                    (jor cq (prop (Some ci) "qty"))
                    (js_Number (jor cp (prop item "price"))))
  | _, _, _ => None
  end.

(** ['order_' + Date.now()] *)
Definition make_order_id (t : Z) : string := "order_" ++ Z_to_dec t.

Definition array_items (v : option json) : list json :=
  match v with Some (JArr l) => l | _ => [] end.

(** [POST /api/create-order], lines 334-373. [body] is the parsed JSON
    body; [gw] is the data of Cashfree's [POST /orders] response ([None]
    when axios throws). The success body is the order id. *)
Definition create_order (e : env) (gw : option json) (body : option json)
    : store -> response * store :=
  run (
    let cart := prop body "cart" in
    let user := prop body "user" in
    let amount := prop body "amount" in
    if negb (truthy (prop user "uid")) then reply 400 "Missing user info" else
    if negb (is_array cart) || Nat.eqb (length (array_items cart)) 0
    then reply 400 "Cart is empty" else
    match js_Number amount with
    | None => reply 400 "Invalid amount"
    | Some orderAmount =>
      if orderAmount <=? 0 then reply 400 "Invalid amount" else
      let cashfreeOrderId := make_order_id (now e) in
      match gw with
      | None => throw "AxiosError"
      | Some data =>
        if negb (truthy (prop (Some data) "payment_session_id"))
        then reply 500 "No payment_session_id from Cashfree" else
        let email := jor (prop user "email") (Some (JStr "noemail@example.com")) in
        upsert_order cashfreeOrderId (fun old =>
          match old with
          | None => OrderRow (col_text (prop user "uid")) (col_text email) "Payment Active"
                             None None None None (Some (now e))
          | Some r => OrderRow (col_text (prop user "uid")) (col_text email) "Payment Active"
                               (o_payment_id r) (o_paid_at r) (o_total_amount r)
                               (o_raw_cart_data r) (Some (now e))
          end) ;;
        match map_throw (item_of_line cashfreeOrderId) (array_items cart) with
        | None => throw "TypeError"
        | Some itemsPayload =>
          (match itemsPayload with
           | [] => mret tt
           | _ => _ ← upsert_items itemsPayload; mret tt
           end) ;;
          reply 200 cashfreeOrderId
        end
      end
    end)
  (fun _ => Resp 500 "Create order failed").



End Idx2Routes.

(* ------------------------------------------------------------------ *)
(** ** The Pending-Snapshot revisions ([part_003], [part_005] second block) *)

Module Snap.
Import Json Store Http.

Definition FLAT_ITEM_DISCOUNT : Z := 5.

(** One line item from a snapshot cart line [ci]:
    [{ order_id, item_id: ci.item.id, qty: ci.qty,
       price: Math.max(0, Number(ci.item.price) - FLAT_ITEM_DISCOUNT) }];
    [None] is the [TypeError] of [ci.item.id] on a missing [item]. *)
Definition snap_item (oid : string) (ci : json) : option item_row :=
  match ci with
  | JNull => None
  | _ =>
    let item := prop (Some ci) "item" in
    match item with
    | None | Some JNull => None
    | Some _ =>
      Some (ItemRow oid (col_text (prop item "id")) (prop (Some ci) "qty")
                    (match js_Number (prop item "price") with
                     | Some p => Some (Z.max 0 (p - FLAT_ITEM_DISCOUNT))
                     | None => None
                     end))
    end
  end.

(** [cart.map(ci => ...)]: [None] when [cart] is no array (no [map]
    method) or a line throws. *)
Definition snap_items (oid : string) (cart : option json) : option (list item_row) :=
  match cart with
  | Some (JArr l) => Idx2Routes.map_throw (snap_item oid) l
  | _ => None
  end.

(** The fields both revisions read from a verified event (lines 137-144 of
    [part_003], 417-424 of [part_005]): order id, [String(cf_payment_id || '')]
    and the raw payment status. [None] is the [TypeError] of [event.data]
    on a [null] event. *)
Definition event_fields (event : json) : option (option json * string * option json) :=
  match event with
  | JNull => None
  | _ =>
    let data := jor (prop (Some event) "data") (Some (JObj [])) in
    let order := jor (prop data "order") (Some (JObj [])) in
    let payment := jor (prop data "payment") (Some (JObj [])) in
    Some (prop order "order_id",
          js_String (jor (prop payment "cf_payment_id") (Some (JStr ""))),
          prop payment "payment_status")
  end.

(** The ledger row both revisions write. *)
Definition pay_row_of (event : json) (orderId : option json) : pay_row :=
  let data := jor (prop (Some event) "data") (Some (JObj [])) in
  let order := jor (prop data "order") (Some (JObj [])) in
  let payment := jor (prop data "payment") (Some (JObj [])) in
  PayRow (js_String orderId)
         (js_Number (jor (jor (prop payment "payment_amount") (prop order "order_amount"))
                         (Some (JNum 0))))
         "SUCCESS" (Some event).

(** Signature gate shared by both revisions: [None] when the HMAC cannot
    be created (no client secret: [createHmac] throws), else whether the
    request is rejected. *)
Definition sig_rejected (e : env) (req : request) : option bool :=
  match client_secret e with
  | None => None
  | Some secret =>
    let expected := cashfree_sig secret (tmpl (header req "x-webhook-timestamp"))
                                 (raw_body req) in
    Some (match header req "x-webhook-signature" with
          | None => true
          | Some sig => String.eqb sig "" || negb (String.eqb expected sig)
          end)
  end.

(** The order header written from a snapshot. *)
Definition header_of (p : snapshot) (t : Z) : order_row :=
  OrderRow (p_user_id p) (p_user_email p) "Preparing" None None None None (Some t).

(** [.from('payments').insert([row])]. *)
Definition insert_payment (key : string) (row : pay_row) : M (option string) :=
  fun s => match payments s !! key with
           | Some _ => (Ok (Some (dup_msg "payments")), s)
           | None => (Ok None, set_payments (<[key := row]> (payments s)) s)
           end.

(** [.from('payments').upsert([row], { onConflict: 'cf_payment_id',
    ignoreDuplicates: true })]. *)
Definition upsert_payment_ignore (key : string) (row : pay_row) : M (option string) :=
  fun s => match payments s !! key with
           | Some _ => (Ok None, s)
           | None => (Ok None, set_payments (<[key := row]> (payments s)) s)
           end.

End Snap.

(** [src/unnamed/part_003], [POST /api/cashfree/webhook], lines 119-241. *)
Module P003.
Import Json Store Http Snap.

Definition webhook (e : env) (req : request) : store -> response * store :=
  run (
    match sig_rejected e req with
    | None => throw "TypeError"
    | Some true => reply 400 "Invalid signature"
    | Some false =>
    match parsed req with
    | None => throw "SyntaxError"
    | Some event =>
    match event_fields event with
    | None => throw "TypeError"
    | Some (orderId, paymentId, payStatus) =>
      if negb (is_str payStatus "SUCCESS") then reply 200 "Ignored non-success" else
      existingPayment ← gets (fun s => payments s !! paymentId);
      if present existingPayment then reply 200 "Duplicate payment ignored" else
      payErr ← insert_payment paymentId (pay_row_of event orderId);
      if present payErr then reply 500 "Payments insert failed" else
      existingOrder ← select_order (js_String orderId);
      if present existingOrder then reply 200 "Order already exists" else
      pending ← select_pending (js_String orderId);
      match pending with
      | None => reply 500 "No pending snapshot"
      | Some p =>
        orderErr ← insert_order (js_String orderId) (header_of p (now e));
        if present orderErr then reply 500 "Order insert failed" else
        match snap_items (js_String orderId) (jor (p_cart p) (Some (JArr []))) with
        | None => throw "TypeError"
        | Some itemsPayload =>
          itemsErr ← insert_items itemsPayload;
          if present itemsErr then reply 500 "Order items insert failed" else
          delete_pending (js_String orderId) ;;
          reply 200 "OK"
        end
      end
    end
    end
    end)
  (fun _ => Resp 500 "Failed").

End P003.

(** [src/unnamed/part_005], second block, [POST /api/cashfree/webhook],
    lines 400-517. *)
Module P005b.
Import Json Store Http Snap.

(** [Array.isArray(pending.cart) ? pending.cart : pending.cart || []] *)
Definition cart_of (p : snapshot) : option json :=
  if is_array (p_cart p) then p_cart p else jor (p_cart p) (Some (JArr [])).

Definition webhook (e : env) (req : request) : store -> response * store :=
  run (
    match sig_rejected e req with
    | None => throw "TypeError"
    | Some true => reply 400 "Invalid signature"
    | Some false =>
    match parsed req with
    | None => throw "SyntaxError"
    | Some event =>
    match event_fields event with
    | None => throw "TypeError"
    | Some (orderId, paymentId, payStatus) =>
      if negb (is_str payStatus "SUCCESS") then reply 200 "Ignored non-success" else
      (* 1) payments upsert, idempotent by cf_payment_id *)
      payErr ← upsert_payment_ignore paymentId (pay_row_of event orderId);
      if present payErr then reply 500 "Payments upsert failed" else
      (* 2) existing header: rebuild the items when there are none *)
      existingOrder ← select_order (js_String orderId);
      if present existingOrder then
        count ← count_items (js_String orderId);
        (if count =? 0 then
           pending ← select_pending (js_String orderId);
           match pending with
           | None => reply 500 "No pending for reconciliation"
           | Some p =>
             match snap_items (js_String orderId) (cart_of p) with
             | None => throw "TypeError"
             | Some itemsPayload =>
               itemsErr ← insert_items itemsPayload;
               if present itemsErr then reply 500 "Order items reconcile failed" else
               delete_pending (js_String orderId)
             end
           end
         else mret tt) ;;
        reply 200 "Order already exists"
      else
      (* 3) fresh order: the snapshot is required *)
      pending ← select_pending (js_String orderId);
      match pending with
      | None => reply 500 "No pending snapshot"
      | Some p =>
        orderErr ← insert_order (js_String orderId) (header_of p (now e));
        if present orderErr then reply 500 "Order insert failed" else
        match snap_items (js_String orderId) (cart_of p) with
        | None => throw "TypeError"
        | Some itemsPayload =>
          itemsErr ← insert_items itemsPayload;
          if present itemsErr then reply 500 "Order items insert failed" else
          delete_pending (js_String orderId) ;;
          reply 200 "OK"
        end
      end
    end
    end
    end)
  (fun _ => Resp 500 "Failed").

End P005b.

(** Repeated delivery of one request, one environment (clock reading) per
    delivery: the responses in order and the final store. *)
Fixpoint deliver (wh : Http.env -> Http.request -> Store.store -> Store.response * Store.store)
    (es : list Http.env) (req : Http.request) (s : Store.store)
    : list Store.response * Store.store :=
  match es with
  | [] => ([], s)
  | e :: es' =>
      let '(r, s1) := wh e req s in
      let '(rs, s2) := deliver wh es' req s1 in
      (r :: rs, s2)
  end.

(** [src/index.js], first block, [POST /api/cashfree/webhook], lines 127-169. *)
Module Idx1.
Import Json Store Http.

Definition webhook (e : env) (req : request) : store -> response * store :=
  run (
    let signature := or_empty (header req "x-webhook-signature") in
    let timestamp := or_empty (header req "x-webhook-timestamp") in
    let secret := or_empty (webhook_secret e) in
    if String.eqb signature "" || String.eqb timestamp "" || String.eqb secret ""
    then reply 400 "Webhook headers missing" else
    let generatedSignature := cashfree_sig secret timestamp (raw_body req) in
    if negb (String.eqb generatedSignature signature)
    then reply 400 "Invalid webhook signature" else
    match parsed req with
    | None | Some JNull => throw "SyntaxError"
    | Some data =>
      let eventType := prop (Some data) "type" in
      match prop (Some data) "data" with
      | None | Some JNull => throw "TypeError"
      | Some inner =>
        let orderData := prop (Some inner) "order" in
        (if is_str eventType "PAYMENT_SUCCESS_WEBHOOK" then
           match orderData with
           | None | Some JNull => throw "TypeError"
           | Some od =>
             if is_str (prop (Some od) "order_status") "PAID" then
               update_order (js_String (prop (Some od) "order_id"))
                 (fun r => String.eqb (o_status r) "Pending Payment")
                 (fun r => OrderRow (o_user_id r) (o_user_email r) "Preparing"
                             (o_payment_id r) (o_paid_at r) (o_total_amount r)
                             (o_raw_cart_data r) (o_created_at r))
             else mret tt
           end
         else mret tt) ;;
        reply 200 "Webhook received successfully"
      end
    end)
  (fun _ => Resp 500 "Internal Server Error").

End Idx1.

(** [src/unnamed/part_000]: [verifyCashfreeWebhook] (lines 41-57) and
    [POST /api/cashfree/webhook] (lines 122-175). The body is parsed by
    [express.json] before the handler runs; a body it cannot parse is
    answered 400 by the middleware ([parsed = None]). *)
Module P000.
Import Json Store Http.

Definition verifyCashfreeWebhook (e : env) (req : request) : bool :=
  match header req "x-webhook-timestamp", header req "x-webhook-signature",
        webhook_secret e with
  | Some ts, Some sig, Some secret =>
      if String.eqb ts "" || String.eqb sig "" || Nat.eqb (length (raw_body req)) 0
         || String.eqb secret ""
      then false
      else String.eqb (cashfree_sig secret ts (raw_body req)) sig
  | _, _, _ => false
  end.

Definition successStatuses : list string := ["PAID"; "SUCCESS"; "CHARGED"; "CAPTURED"].

Definition set_status (st : string) (r : order_row) : order_row :=
  OrderRow (o_user_id r) (o_user_email r) st (o_payment_id r) (o_paid_at r)
           (o_total_amount r) (o_raw_cart_data r) (o_created_at r).

Definition webhook (e : env) (req : request) : store -> response * store :=
  match parsed req with
  | None => fun s => (Resp 400 "Bad Request", s)
  | Some body =>
  run (
    if negb (verifyCashfreeWebhook e req) then reply 200 "{ok:false}" else
    let payload := jor (Some body) (Some (JObj [])) in
    let orderObj := jor (jor (jor (prop (prop payload "data") "order")
                                  (prop (prop payload "data") "object"))
                             (prop payload "order")) payload in
    let order_id := jor (prop orderObj "order_id") (prop orderObj "id") in
    let rawStatus := jor (jor (prop orderObj "order_status") (prop orderObj "status"))
                         (Some (JStr "")) in
    let cf_payment_id := jor (jor (prop orderObj "cf_payment_id") (prop orderObj "payment_id"))
                             (Some JNull) in
    let st := upper (js_String rawStatus) in
    if negb (truthy order_id) then reply 200 "{ok:true}" else
    '(dbOrder, fetchErr) ← select_order_single (js_String order_id);
    match dbOrder, fetchErr with
    | _, Some _ =>
        _ ← insert_order (js_String order_id)
              (OrderRow None None (if str_in st successStatuses then "Preparing" else st)
                        None None None None None);
        reply 200 "{ok:true}"
    | Some row, None =>
        (if str_in st successStatuses then
           if negb (String.eqb (o_status row) "Preparing") && negb (String.eqb (o_status row) "Success")
           then update_order (js_String order_id) (fun _ => true)
                  (fun r => OrderRow (o_user_id r) (o_user_email r) "Preparing"
                              (if truthy cf_payment_id then Some (js_String cf_payment_id) else None)
                              (o_paid_at r) (o_total_amount r) (o_raw_cart_data r)
                              (o_created_at r))
           else mret tt
         else update_order (js_String order_id) (fun _ => true) (set_status st)) ;;
        reply 200 "{ok:true}"
    | None, None => throw "TypeError"
    end)
  (fun _ => Resp 200 "{ok:false}")
  end.

End P000.

(** [src/unnamed/part_008]: [verifyCashfreeWebhook] (lines 48-76) and
    [POST /api/cashfree/webhook] (lines 147-252); the cart is kept on the
    pre-recorded order row ([raw_cart_data]). *)
Module P008.
Import Json Store Http.

Definition verifyCashfreeWebhook (e : env) (req : request) : bool :=
  match header req "x-webhook-timestamp", header req "x-webhook-signature" with
  | Some ts, Some sig =>
      if String.eqb ts "" || String.eqb sig "" || Nat.eqb (length (raw_body req)) 0
      then false
      else match client_secret e with
           | None => false   (* createHmac throws; caught, returns false *)
           | Some secret => String.eqb (cashfree_sig secret ts (raw_body req)) sig
           end
  | _, _ => false
  end.

(** [ci && ci.item && ci.item.id] *)
Definition well_formed_line (ci : json) : bool :=
  truthy (Some ci) && truthy (prop (Some ci) "item") && truthy (prop (prop (Some ci) "item") "id").

Definition line_item (oid : string) (ci : json) : item_row :=
  ItemRow oid (col_text (prop (prop (Some ci) "item") "id")) (prop (Some ci) "qty")
          (js_Number (prop (prop (Some ci) "item") "price")).

Definition set_status (st : string) (r : order_row) : order_row :=
  OrderRow (o_user_id r) (o_user_email r) st (o_payment_id r) (o_paid_at r)
           (o_total_amount r) (o_raw_cart_data r) (o_created_at r).

Definition webhook (e : env) (req : request) : store -> response * store :=
  if Nat.eqb (length (raw_body req)) 0 then fun s => (Resp 200 "Test ping or empty body acknowledged.", s) else
  match parsed req with
  | None => fun s => (Resp 400 "Bad Request", s)
  | Some event =>
  if negb (verifyCashfreeWebhook e req)
  then fun s => (Resp 200 "Signature verification failed", s) else
  run (
    let ev := jor (prop (prop (Some event) "data") "order") (Some event) in
    let order_id := prop ev "order_id" in
    let order_status := prop ev "order_status" in
    let cf_payment_id := prop ev "cf_payment_id" in
    if negb (is_str (prop ev "entity") "order") || negb (truthy order_id)
    then reply 200 "Invalid event structure" else
    '(preOrder, fetchErr) ← select_order_single (js_String order_id);
    match preOrder, fetchErr with
    | Some pre, None =>
      (if is_str order_status "PAID" || is_str order_status "SUCCESS" then
         if negb (String.eqb (o_status pre) "Pending Payment")
         then reply 200 "Order already processed" else
         match o_raw_cart_data pre with
         | Some (JArr (_ :: _ as lines)) =>
           let itemsPayload := map (line_item (js_String order_id))
                                   (filter (fun ci => well_formed_line ci = true) lines) in
           match itemsPayload with
           | [] =>
             update_order (js_String order_id) (fun _ => true) (set_status "Failed: Items Missing IDs") ;;
             reply 200 "Items failed validation"
           | _ =>
             update_order (js_String order_id) (fun _ => true)
               (fun r => OrderRow (o_user_id r) (o_user_email r) "Preparing"
                           (Some (js_String (jor cf_payment_id (Some (JStr "N/A")))))
                           (o_paid_at r) (o_total_amount r) (o_raw_cart_data r) (o_created_at r)) ;;
             _ ← insert_items itemsPayload;
             mret tt
           end
         | _ =>
           update_order (js_String order_id) (fun _ => true) (set_status "Failed: Missing Cart Data") ;;
           reply 200 "Missing cart data"
         end
       else
         match order_status with
         | None => mret tt
         | Some st => update_order (js_String order_id) (fun _ => true) (set_status (js_String_j st))
         end) ;;
      reply 200 "Webhook processed"
    | _, _ => reply 200 "Order not found in DB"
    end)
  (fun _ => Resp 200 "Internal server error processing webhook")
  end.

End P008.

(** [src/unnamed/part_005], first block: [verifyCashfreeSignature]
    (lines 34-43), which hashes the raw body alone. *)
Module P005a.
Import Bytes Crypto Http.

Definition verifyCashfreeSignature (e : env) (rawBody : bytes) (signatureHeader : string) : bool :=
  let secret := or_empty (webhook_secret e) in
  if String.eqb secret "" || String.eqb signatureHeader "" then false
  else
    let computed := base64 (hmac_sha256 (key_of secret) rawBody) in
    match Idx2.timingSafeEqual (utf8_encode (latin1_decode computed))
                               (utf8_encode (latin1_decode signatureHeader)) with
    | Some b => b
    | None => false
    end.

End P005a.

(** The signature as the specification words it: Base64 of HMAC-SHA256,
    keyed by the secret, over the timestamp string directly followed by the
    raw body bytes. *)
Module Claimed.
Import Bytes Crypto Http.


End Claimed.

(** Reading back the UTF-8 encoding of a latin1 string: one code point
    from the front of a byte list, for code points below 2048. *)
Module Utf8Inv.
Import Bytes.



End Utf8Inv.

(* ------------------------------------------------------------------ *)
(** * Concrete requests and stores *)

Module Samples.
Import Json Store Http.

(** [JSON.stringify] for the sample payloads (no escapes needed). *)
Fixpoint json_text (j : json) : string :=
  (match j with
  | JNull => "null"
  | JBool true => "true"
  | JBool false => "false"
  | JNum z => Z_to_dec z
  | JStr s => quote ++ s ++ quote
  | JArr l => "[" ++ String.concat "," (map json_text l) ++ "]"
  | JObj kvs =>
      "{" ++ String.concat "," (map (fun kv : string * json => (quote ++ fst kv ++ quote ++ ":" ++ json_text (snd kv))%string) kvs)
      ++ "}"
  end)%string.

Definition secret : string := "cf_test_secret".
Definition ts : string := "1700000000".
Definition order_key : string := "order_1700000000000".

(** A gateway notification for [order_key] with the given payment status. *)
Definition event (payment_status : string) : json :=
  JObj [("type", JStr "PAYMENT_SUCCESS_WEBHOOK");
        ("data", JObj [("order", JObj [("order_id", JStr order_key); ("order_status", JStr "PAID");
                                      ("entity", JStr "order")]);
                       ("payment", JObj [("cf_payment_id", JNum 5114910);
                                         ("payment_status", JStr payment_status);
                                         ("payment_amount", JNum 120)])])].

(** The request carrying [ev], signed with [secret] at [ts]. *)
Definition signed (ev : json) : request :=
  let body := Bytes.of_string (json_text ev) in
  Req [("x-webhook-signature", cashfree_sig secret ts body); ("x-webhook-timestamp", ts)]
      body (Some ev).

(** A FAILED notification whose body was changed to SUCCESS in transit:
    the signature is the one the gateway computed for the FAILED body. *)
Definition tampered : request :=
  Req (headers (signed (event "FAILED"))) (raw_body (signed (event "SUCCESS")))
      (Some (event "SUCCESS")).

Definition env_at (t : Z) : env := Env t (Some secret) (Some secret) None.

(** The same, with the ledger insert failing for an infrastructure reason. *)
Definition faulty_env (t : Z) : env := Env t (Some secret) (Some secret) (Some "fetch failed").

Definition cart : json :=
  JArr [JObj [("item", JObj [("id", JStr "A"); ("price", JNum 50)]); ("qty", JNum 2)];
        JObj [("item", JObj [("id", JStr "B"); ("price", JNum 30)]); ("qty", JNum 1)]].

Definition snap : snapshot :=
  Snapshot (Some "user_1") (Some "user1@example.com") (Some 120) (Some cart) 1699999990000.

(** The line items [snap]'s cart yields: the flat discount of 5 taken off. *)
Definition snap_rows : list item_row :=
  [ItemRow order_key (Some "A") (Some (JNum 2)) (Some 45);
   ItemRow order_key (Some "B") (Some (JNum 1)) (Some 25)].

Definition empty_store : store := Store ∅ [] ∅ ∅ ∅.

Definition with_snapshot : store := set_pending {[ order_key := snap ]} empty_store.

(** An order create-order has recorded, waiting for payment. *)
Definition active_row : order_row :=
  OrderRow (Some "user_1") (Some "user1@example.com") "Payment Active" None None None None
           (Some 1700000000000).

Definition active_store : store := set_orders {[ order_key := active_row ]} empty_store.




(** A create-order request in the shape index.js reads ([id], [price],
    [quantity] per line) and the gateway's answer. *)
Definition line (id : string) (price qty : Z) : json :=
  JObj [("id", JStr id); ("price", JNum price); ("quantity", JNum qty)].
Definition create_body_of (uid : string) (lines : list json) : option json :=
  Some (JObj [("cart", JArr lines);
              ("user", JObj [("uid", JStr uid); ("email", JStr (uid ++ "@example.com"))]);
              ("amount", JNum 130)]).
Definition create_body : list json -> option json := create_body_of "user_1".
Definition gw_session : option json := Some (JObj [("payment_session_id", JStr "session_1")]).

End Samples.

(* ------------------------------------------------------------------ *)
(** * What a route may change *)

Module Frame.
Import Store.


(** The line items are left as they were. *)
Definition same_items (s s' : store) : Prop := order_items s' = order_items s.

(** Every order row is left as it was, except rows whose [paid_at] was
    unset, which may become a row satisfying [P]. *)
Definition unpaid_only (P : order_row -> Prop) (s s' : store) : Prop :=
  forall id, orders s' !! id = orders s !! id \/
    exists r r', orders s !! id = Some r /\ o_paid_at r = None /\
                 orders s' !! id = Some r' /\ P r'.



End Frame.

(* ------------------------------------------------------------------ *)
(** * Test vectors for the primitives *)

Example sha256_abc :
  Crypto.hex (Crypto.sha256 (Bytes.of_string "abc")) =
  "ba7816bf8f01cfea414140de5dae2223b00361a396177a9cb410ff61f20015ad"%string.
Proof. vm_compute. reflexivity. Qed.

Example hmac_rfc4231_2 :
  Crypto.hex (Crypto.hmac_sha256 (Bytes.of_string "Jefe")
                (Bytes.of_string "what do ya want for nothing?")) =
  "5bdcc146bf60754e6a042426089575c75a003f089d2739839dec58b964ec3843"%string.
Proof. vm_compute. reflexivity. Qed.

Example base64_man : Crypto.base64 (Bytes.of_string "Ma") = "TWE="%string.
Proof. vm_compute. reflexivity. Qed.

Example utf8_invalid_ff : Bytes.utf8_decode [255; 65] = [65533; 65].
Proof. vm_compute. reflexivity. Qed.

Example utf8_euro : Bytes.utf8_decode [226; 130; 172] = [8364].
Proof. vm_compute. reflexivity. Qed.

Example js_String_num : Json.js_String (Some (Json.JNum 1700000000000)) = "1700000000000"%string.
Proof. reflexivity. Qed.


(* ------------------------------------------------------------------ *)
(** * Facts about the embedding *)

Module Facts.
Import Json Store Http Snap.

Lemma map_throw_Forall {A B} (f : A -> option B) (P : B -> Prop) (l : list A) (ys : list B) :
  (forall x y, f x = Some y -> P y) -> Idx2Routes.map_throw f l = Some ys -> Forall P ys.
Proof.
  intros Hf. revert ys. induction l as [|x l IH]; intros ys H; simpl in H.
  - injection H as <-. constructor.
  - destruct (f x) eqn:Ex; [|discriminate].
    destruct (Idx2Routes.map_throw f l) eqn:El; [|discriminate].
    injection H as <-. constructor; [eapply Hf; eauto | by apply IH].
Qed.

Lemma snap_items_oid (oid : string) (c : option json) (rows : list item_row) :
  snap_items oid c = Some rows -> Forall (fun r => i_order_id r = oid) rows.
Proof.
  unfold snap_items. destruct c as [[]|]; try discriminate.
  apply map_throw_Forall. intros x y. unfold snap_item.
  destruct x; try discriminate;
  destruct (prop _ "item") as [[]|]; try discriminate; intros H; injection H as <-; reflexivity.
Qed.

Lemma filter_Forall_id {A} (P : A -> Prop) `{!forall x, Decision (P x)} (l : list A) :
  Forall P l -> filter P l = l.
Proof.
  induction 1 as [|x l Hx _ IH]; [done|].
  by rewrite filter_cons_True, IH.
Qed.

Lemma items_of_append (oid : string) (s : store) (rows : list item_row) :
  Forall (fun r => i_order_id r = oid) rows ->
  items_of oid (set_items (order_items s ++ rows) s) = items_of oid s ++ rows.
Proof.
  intros H. unfold items_of; simpl. rewrite filter_app. f_equal.
  by apply filter_Forall_id.
Qed.

End Facts.

(** First and later deliveries of a SUCCESS notification to the
    pending-snapshot handler of [part_005]. *)
Module P005bFacts.
Import Json Store Http Snap.

Ltac unfold_monad :=
  cbv beta iota zeta delta [mbind M_bind mret M_ret gets modify reply throw select_order
    select_pending delete_pending insert_order insert_items count_items update_order
    upsert_order upsert_payment_ignore insert_payment negb].

Lemma first_delivery (e : env) (req : request) (s : store) (ev : json) (orderId : option json)
  (pid : string) (pst : option json) (p : snapshot) (rows : list item_row) :
  sig_rejected e req = Some false ->
  parsed req = Some ev ->
  event_fields ev = Some (orderId, pid, pst) ->
  is_str pst "SUCCESS" = true ->
  orders s !! js_String orderId = None ->
  pending_orders s !! js_String orderId = Some p ->
  snap_items (js_String orderId) (P005b.cart_of p) = Some rows ->
  exists s1, P005b.webhook e req s = (Resp 200 "OK", s1) /\
    orders s1 !! js_String orderId = Some (header_of p (now e)) /\
    items_of (js_String orderId) s1 = items_of (js_String orderId) s ++ rows /\
    pending_orders s1 !! js_String orderId = None /\
    present (payments s1 !! pid) = true.
Proof.
  intros Hsig Hp Hf Hst Ho Hpe Hi.
  unfold P005b.webhook, run. rewrite Hsig, Hp, Hf, Hst. unfold_monad.
  destruct (payments s !! pid) eqn:Epay;
    repeat (progress (cbn; rewrite ?Ho, ?Hpe, ?Hi)); cbn;
    (eexists; split; [reflexivity|]); cbn;
    (split; [by rewrite lookup_insert_eq|]);
    (split; [by apply Facts.items_of_append, (Facts.snap_items_oid _ (P005b.cart_of p))|]);
    (split; [by rewrite lookup_delete_eq|]).
  - by rewrite Epay.
  - by rewrite lookup_insert_eq.
Qed.

Lemma redelivery (e : env) (req : request) (s : store) (ev : json) (orderId : option json)
  (pid : string) (pst : option json) :
  sig_rejected e req = Some false ->
  parsed req = Some ev ->
  event_fields ev = Some (orderId, pid, pst) ->
  is_str pst "SUCCESS" = true ->
  present (orders s !! js_String orderId) = true ->
  items_of (js_String orderId) s <> [] ->
  present (payments s !! pid) = true ->
  P005b.webhook e req s = (Resp 200 "Order already exists", s).
Proof.
  intros Hsig Hp Hf Hst Ho Hi Hpay.
  unfold P005b.webhook, run. rewrite Hsig, Hp, Hf, Hst. unfold_monad.
  destruct (payments s !! pid) eqn:Epay; [|discriminate].
  cbn. destruct (orders s !! js_String orderId) eqn:Eo; [|discriminate].
  cbn. destruct (items_of (js_String orderId) s) eqn:Ei; [congruence|].
  cbn. replace (Z.of_nat (S (length l)) =? 0) with false by (symmetry; apply Z.eqb_neq; lia).
  reflexivity.
Qed.

Lemma redeliveries (es : list env) (req : request) (s : store) (ev : json)
  (orderId : option json) (pid : string) (pst : option json) :
  Forall (fun e => sig_rejected e req = Some false) es ->
  parsed req = Some ev ->
  event_fields ev = Some (orderId, pid, pst) ->
  is_str pst "SUCCESS" = true ->
  present (orders s !! js_String orderId) = true ->
  items_of (js_String orderId) s <> [] ->
  present (payments s !! pid) = true ->
  deliver P005b.webhook es req s = (map (fun _ => Resp 200 "Order already exists") es, s).
Proof.
  intros Hall Hp Hf Hst Ho Hi Hpay.
  induction Hall as [|e es He _ IH]; [done|].
  cbn. rewrite (redelivery e req s ev orderId pid pst); try done.
  by rewrite IH.
Qed.

End P005bFacts.

(** part_003: the ledger row is written before the snapshot is looked up. *)
Module P003Facts.
Import Json Store Http Snap.

Lemma duplicate (e : env) (req : request) (s : store) (ev : json) (orderId : option json)
  (pid : string) (pst : option json) :
  sig_rejected e req = Some false -> parsed req = Some ev ->
  event_fields ev = Some (orderId, pid, pst) -> is_str pst "SUCCESS" = true ->
  present (payments s !! pid) = true ->
  P003.webhook e req s = (Resp 200 "Duplicate payment ignored", s).
Proof.
  intros Hsig Hp Hf Hst Hpay.
  unfold P003.webhook, run. rewrite Hsig, Hp, Hf, Hst.
  unfold mbind, M_bind, gets, reply. cbn.
  destruct (payments s !! pid); [reflexivity|discriminate].
Qed.


End P003Facts.

Module P005bMissing.
Import Json Store Http Snap.


End P005bMissing.

Module P008Facts.
Import Json Store Http.


End P008Facts.

Module Idx2Facts.
Import Json Store Http.

(** The only 200 create-order gives carries the clock-derived identifier. *)
Lemma create_order_ok_id e gw body s r s1 :
  Idx2Routes.create_order e gw body s = (r, s1) -> code r = 200 ->
  r = Resp 200 (Idx2Routes.make_order_id (now e)).
Proof.
  unfold Idx2Routes.create_order, run.
  cbv beta iota zeta delta [mbind M_bind mret M_ret reply throw upsert_order modify upsert_items].
  repeat (case_match; simplify_eq/=); try done.
  all: intros Hrun Hc; inversion Hrun; subst; simpl in *; try discriminate; reflexivity.
Qed.

End Idx2Facts.

Module Utf8Facts.
Import Bytes Utf8Inv.







End Utf8Facts.

Module FrameFacts.
Import Json Store Http Frame.

Section Stays.
Context (R : store -> store -> Prop) `{!PreOrder R}.







End Stays.


#[export] Instance same_items_preorder : PreOrder same_items.
Proof. split; [by intros s|]. intros s1 s2 s3 H1 H2. unfold same_items in *. congruence. Qed.

#[export] Instance unpaid_only_preorder (P : order_row -> Prop) : PreOrder (unpaid_only P).
Proof.
  split; [by intros s id; left|].
  intros s1 s2 s3 H12 H23 id.
  destruct (H12 id) as [E12 | (r & r' & E1 & Hr & E2 & HP)];
  destruct (H23 id) as [E23 | (q & q' & F2 & Hq & F3 & HQ)].
  - left. congruence.
  - rewrite E12 in F2. right. eauto 10.
  - right. exists r, r'. rewrite E23. auto.
  - right. exists r, q'. repeat split; auto.
Qed.















End FrameFacts.

(* ------------------------------------------------------------------ *)
(** * The claims *)

Module Claims.
Import Json Store Http Snap Samples.

(** C1: with the pending-snapshot handler of [part_005] (lines 243-531),
    when a correctly signed SUCCESS notification for an order whose
    snapshot is pending and which has no header yet is delivered one or
    more times, the first delivery answers 200 and writes the order header
    (status Preparing), the snapshot's line items and deletes the snapshot;
    every later delivery finds the items and answers 200 without changing
    anything. In the end there is one header and exactly the snapshot's
    items. *)
Theorem C1_finalized_exactly_once (e0 : env) (es : list env) (req : request) (s : store)
  (ev : json) (orderId : option json) (pid : string) (pst : option json)
  (p : snapshot) (rows : list item_row) :
  Forall (fun e => sig_rejected e req = Some false) (e0 :: es) ->
  parsed req = Some ev ->
  event_fields ev = Some (orderId, pid, pst) ->
  is_str pst "SUCCESS" = true ->
  orders s !! js_String orderId = None ->
  items_of (js_String orderId) s = [] ->
  pending_orders s !! js_String orderId = Some p ->
  snap_items (js_String orderId) (P005b.cart_of p) = Some rows ->
  rows <> [] ->
  exists s1,
    deliver P005b.webhook (e0 :: es) req s =
      (Resp 200 "OK" :: map (fun _ => Resp 200 "Order already exists") es, s1) /\
    orders s1 !! js_String orderId = Some (header_of p (now e0)) /\
    items_of (js_String orderId) s1 = rows /\
    pending_orders s1 !! js_String orderId = None.
Proof.
  intros Hall Hp Hf Hst Ho Hi0 Hpe Hrows Hne.
  inversion Hall as [|? ? Hsig0 Hrest]; subst.
  destruct (P005bFacts.first_delivery e0 req s ev orderId pid pst p rows Hsig0 Hp Hf Hst Ho Hpe Hrows)
    as (s1 & Hw & Ho1 & Hi1 & Hpe1 & Hpay1).
  rewrite Hi0 in Hi1. simpl in Hi1.
  exists s1. cbn. rewrite Hw.
  rewrite (P005bFacts.redeliveries es req s1 ev orderId pid pst); try done.
  - by rewrite Ho1.
  - by rewrite Hi1.
Qed.

Lemma C1_witness : exists s1,
    deliver P005b.webhook [env_at 1700000001000; env_at 1700000005000; env_at 1700000009000]
      (signed (event "SUCCESS")) with_snapshot =
      ([Resp 200 "OK"; Resp 200 "Order already exists"; Resp 200 "Order already exists"], s1) /\
    orders s1 !! order_key = Some (header_of snap 1700000001000) /\
    items_of order_key s1 = snap_rows /\
    pending_orders s1 !! order_key = None.
Proof.
  apply (C1_finalized_exactly_once (env_at 1700000001000) [env_at 1700000005000; env_at 1700000009000]
           (signed (event "SUCCESS")) with_snapshot (event "SUCCESS") (Some (JStr order_key))
           "5114910" (Some (JStr "SUCCESS")) snap snap_rows).
  all: lazymatch goal with
       | |- Forall _ _ => repeat (constructor; [vm_compute; reflexivity|]); constructor
       | |- _ <> _ => vm_compute; discriminate
       | |- _ => vm_compute; reflexivity
       end.
Defined.





(** C10: in index.js's current webhook, when the ledger insert into
    [order_payments] fails, whatever the database's message (in particular
    one that is not a duplicate-key violation), the failure is only
    logged. For a correctly signed notification with a success status for
    an order whose [paid_at] is unset, the handler still marks the order
    Preparing with [paid_at] set and answers 200. The ledger is left
    without a row for the payment. *)
Theorem C10_ledger_failure_ignored (e : env) (req : request) (s : store) (msg : string)
  (payload : json) (orderId paymentId : option json) (status : string) (amount : option Z)
  (r : order_row) :
  String.eqb (or_empty (header req "x-webhook-signature")) "" = false ->
  Idx2.verifyCashfreeSignature e (raw_body req) (or_empty (header req "x-webhook-signature"))
    (or_empty (header req "x-webhook-timestamp")) = true ->
  parsed req = Some payload ->
  Idx2.extract payload = (orderId, paymentId, Some status, amount) ->
  truthy orderId = true -> truthy paymentId = true ->
  ledger_fault e = Some msg ->
  str_in status Idx2.success_tokens = true ->
  orders s !! js_String orderId = Some r -> o_paid_at r = None ->
  Idx2.webhook e req s =
    (Resp 200 "OK",
     set_orders (<[js_String orderId := Idx2.mark_preparing (js_String paymentId) (now e) r]>
                   (orders s)) s).
Proof.
  intros Hs Hv Hp Hx Ho Hpi Hf Hst Hr Hpa.
  unfold Idx2.webhook, run. cbv zeta. rewrite Hs, Hv, Hp, Hx, Ho, Hpi. cbn -[str_in Idx2.success_tokens].
  unfold Idx2.insert_order_payment. rewrite Hf. cbn -[str_in Idx2.success_tokens]. rewrite Hst. cbn.
  unfold update_order, modify, mbind, M_bind, reply. cbn. rewrite Hr. unfold Idx2.paid_at_null. rewrite Hpa.
  reflexivity.
Qed.

Lemma C10_witness :
  Idx2.webhook (faulty_env 1700000009000) (signed (event "SUCCESS")) active_store =
    (Resp 200 "OK",
     set_orders (<[order_key := Idx2.mark_preparing "5114910" 1700000009000 active_row]>
                   (orders active_store)) active_store).
Proof.
  apply (C10_ledger_failure_ignored (faulty_env 1700000009000) (signed (event "SUCCESS"))
           active_store "fetch failed" (event "SUCCESS") (Some (JStr order_key))
           (Some (JNum 5114910)) "SUCCESS" (Some 120) active_row).
  all: vm_compute; reflexivity.
Defined.

(** C7: a notification whose payment id is already in the payment ledger
    adds no second ledger row and is acknowledged without redoing work
    already done. In part_003 such a delivery answers 200 'Duplicate payment
    ignored' and changes nothing. In part_005 the ledger upsert ignores it,
    and when the order already has its header and items the delivery
    answers 200 'Order already exists' and changes nothing. In index.js's
    current revision the insert fails on the duplicate key and the failure
    is only logged. When the order is already paid (or unknown), the
    guarded update changes nothing, and the handler answers 200 with the
    store unchanged. *)
Theorem C7_duplicate_payment_noop :
  (forall e req s ev orderId pid pst,
     sig_rejected e req = Some false -> parsed req = Some ev ->
     event_fields ev = Some (orderId, pid, pst) -> is_str pst "SUCCESS" = true ->
     present (payments s !! pid) = true ->
     P003.webhook e req s = (Resp 200 "Duplicate payment ignored", s)) /\
  (forall e req s ev orderId pid pst,
     sig_rejected e req = Some false -> parsed req = Some ev ->
     event_fields ev = Some (orderId, pid, pst) -> is_str pst "SUCCESS" = true ->
     present (payments s !! pid) = true ->
     present (orders s !! js_String orderId) = true ->
     items_of (js_String orderId) s <> [] ->
     P005b.webhook e req s = (Resp 200 "Order already exists", s)) /\
  (forall e req s payload orderId paymentId status amount,
     String.eqb (or_empty (header req "x-webhook-signature")) "" = false ->
     Idx2.verifyCashfreeSignature e (raw_body req) (or_empty (header req "x-webhook-signature"))
       (or_empty (header req "x-webhook-timestamp")) = true ->
     parsed req = Some payload ->
     Idx2.extract payload = (orderId, paymentId, Some status, amount) ->
     truthy orderId = true -> truthy paymentId = true ->
     ledger_fault e = None ->
     present (order_payments s !! js_String paymentId) = true ->
     (forall r, orders s !! js_String orderId = Some r -> o_paid_at r <> None) ->
     Idx2.webhook e req s = (Resp 200 "OK", s)).
Proof.
  split; [|split].
  - exact P003Facts.duplicate.
  - intros e req s ev orderId pid pst Hsig Hp Hf Hst Hpay Ho Hi.
    exact (P005bFacts.redelivery e req s ev orderId pid pst Hsig Hp Hf Hst Ho Hi Hpay).
  - intros e req s payload orderId paymentId status amount Hs Hv Hp Hx Ho Hpi Hf Hpay Hpaid.
    unfold Idx2.webhook, run. cbv zeta. rewrite Hs, Hv, Hp, Hx, Ho, Hpi.
    cbn -[str_in Idx2.success_tokens].
    unfold Idx2.insert_order_payment, update_order, modify, mbind, M_bind, reply, mret, M_ret.
    rewrite Hf. destruct (order_payments s !! js_String paymentId); [|discriminate].
    destruct (str_in status Idx2.success_tokens); cbn; [|reflexivity].
    destruct (orders s !! js_String orderId) as [r|] eqn:Eo; [|reflexivity].
    unfold Idx2.paid_at_null. destruct (o_paid_at r) eqn:Epa; [reflexivity|].
    exfalso. exact (Hpaid r eq_refl Epa).
Qed.

Lemma C7_witness :
  (let s1 := snd (P003.webhook (env_at 1700000001000) (signed (event "SUCCESS")) with_snapshot) in
   P003.webhook (env_at 1700000005000) (signed (event "SUCCESS")) s1 =
     (Resp 200 "Duplicate payment ignored", s1)) /\
  (let s1 := snd (P005b.webhook (env_at 1700000001000) (signed (event "SUCCESS")) with_snapshot) in
   P005b.webhook (env_at 1700000005000) (signed (event "SUCCESS")) s1 =
     (Resp 200 "Order already exists", s1)) /\
  (let s1 := snd (Idx2.webhook (env_at 1700000001000) (signed (event "SUCCESS")) active_store) in
   Idx2.webhook (env_at 1700000005000) (signed (event "SUCCESS")) s1 = (Resp 200 "OK", s1)).
Proof.
  cbv zeta. split; [|split].
  - apply (proj1 C7_duplicate_payment_noop _ _ _ (event "SUCCESS") (Some (JStr order_key))
             "5114910" (Some (JStr "SUCCESS"))); vm_compute; reflexivity.
  - apply (proj1 (proj2 C7_duplicate_payment_noop) _ _ _ (event "SUCCESS") (Some (JStr order_key))
             "5114910" (Some (JStr "SUCCESS"))); vm_compute; first [reflexivity | discriminate].
  - apply (proj2 (proj2 C7_duplicate_payment_noop) _ _ _ (event "SUCCESS") (Some (JStr order_key))
             (Some (JNum 5114910)) "SUCCESS" (Some 120)); vm_compute; try reflexivity.
    intros r H. injection H as <-. discriminate.
Defined.

(** C5 (amended): in every revision, a notification whose signature check
    fails leaves the store unchanged. The answer is not always a success:
    index.js's current webhook, part_000 and part_008 answer 200, but
    index.js's first webhook and the pending-snapshot revisions (part_003,
    part_005) answer 400. *)
Theorem C5_rejection_changes_nothing :
  (forall e req s,
     String.eqb (or_empty (header req "x-webhook-signature")) "" = false ->
     Idx2.verifyCashfreeSignature e (raw_body req) (or_empty (header req "x-webhook-signature"))
       (or_empty (header req "x-webhook-timestamp")) = false ->
     Idx2.webhook e req s = (Resp 200 "OK", s)) /\
  (forall e req s body,
     parsed req = Some body -> P000.verifyCashfreeWebhook e req = false ->
     P000.webhook e req s = (Resp 200 "{ok:false}", s)) /\
  (forall e req s body,
     Nat.eqb (length (raw_body req)) 0 = false -> parsed req = Some body ->
     P008.verifyCashfreeWebhook e req = false ->
     P008.webhook e req s = (Resp 200 "Signature verification failed", s)) /\
  (forall e req s,
     (String.eqb (or_empty (header req "x-webhook-signature")) ""
      || String.eqb (or_empty (header req "x-webhook-timestamp")) ""
      || String.eqb (or_empty (webhook_secret e)) "") = false ->
     String.eqb (cashfree_sig (or_empty (webhook_secret e)) (or_empty (header req "x-webhook-timestamp"))
                   (raw_body req)) (or_empty (header req "x-webhook-signature")) = false ->
     Idx1.webhook e req s = (Resp 400 "Invalid webhook signature", s)) /\
  (forall e req s, sig_rejected e req = Some true ->
     P003.webhook e req s = (Resp 400 "Invalid signature", s) /\
     P005b.webhook e req s = (Resp 400 "Invalid signature", s)).
Proof.
  split; [|split; [|split; [|split]]].
  - intros e req s Hs Hv. unfold Idx2.webhook, run. cbv zeta. rewrite Hs, Hv. reflexivity.
  - intros e req s body Hp Hv. unfold P000.webhook, run. rewrite Hp. cbv zeta. rewrite Hv.
    reflexivity.
  - intros e req s body Hl Hp Hv. unfold P008.webhook. rewrite Hl, Hp, Hv. reflexivity.
  - intros e req s Hh Hc. unfold Idx1.webhook, run. cbv zeta. rewrite Hh, Hc. reflexivity.
  - intros e req s Hr. unfold P003.webhook, P005b.webhook, run. rewrite Hr. split; reflexivity.
Qed.

(** C5 fails as stated: index.js's first webhook answers the tampered
    notification with 400, not with a success acknowledgement (the store
    is unchanged). *)
Lemma C5_counterexample :
  Idx1.webhook (env_at 1700000003000) tampered active_store =
    (Resp 400 "Invalid webhook signature", active_store).
Proof. vm_compute. reflexivity. Qed.

Lemma C5_witness :
  Idx2.webhook (env_at 1700000003000) tampered active_store = (Resp 200 "OK", active_store) /\
  P000.webhook (env_at 1700000003000) tampered active_store = (Resp 200 "{ok:false}", active_store) /\
  P008.webhook (env_at 1700000003000) tampered active_store =
    (Resp 200 "Signature verification failed", active_store) /\
  Idx1.webhook (env_at 1700000003000) tampered active_store =
    (Resp 400 "Invalid webhook signature", active_store) /\
  (P003.webhook (env_at 1700000003000) tampered active_store = (Resp 400 "Invalid signature", active_store) /\
   P005b.webhook (env_at 1700000003000) tampered active_store = (Resp 400 "Invalid signature", active_store)).
Proof.
  destruct C5_rejection_changes_nothing as (H1 & H2 & H3 & H4 & H5).
  split; [|split; [|split; [|split]]].
  - apply H1; vm_compute; reflexivity.
  - apply (H2 _ _ _ (event "SUCCESS")); vm_compute; reflexivity.
  - apply (H3 _ _ _ (event "SUCCESS")); vm_compute; reflexivity.
  - apply H4; vm_compute; reflexivity.
  - apply H5; vm_compute; reflexivity.
Defined.



(** C9: create-order's identifier is ['order_' + Date.now()], so it
    depends on the clock alone. Two create-order calls that read the same
    millisecond and both succeed answer with the same identifier, whatever
    their carts, users and stores. *)
Theorem C9_same_millisecond_same_id (e e' : env) (gw gw' body body' : option json) (s s' : store) :
  now e = now e' ->
  code (fst (Idx2Routes.create_order e gw body s)) = 200 ->
  code (fst (Idx2Routes.create_order e' gw' body' s')) = 200 ->
  fst (Idx2Routes.create_order e gw body s) = fst (Idx2Routes.create_order e' gw' body' s').
Proof.
  intros Ht H1 H2.
  destruct (Idx2Routes.create_order e gw body s) as [r s1] eqn:E1.
  destruct (Idx2Routes.create_order e' gw' body' s') as [r' s1'] eqn:E2.
  simpl in *.
  rewrite (Idx2Facts.create_order_ok_id _ _ _ _ _ _ E1 H1),
          (Idx2Facts.create_order_ok_id _ _ _ _ _ _ E2 H2), Ht.
  reflexivity.
Qed.

(** Two customers' create-order calls in the same millisecond: both get
    'order_1700000000000', the second one's upsert takes over the first
    one's order row, and the line items of both carts end up under it. *)
Lemma C9_witness :
  let s1 := snd (Idx2Routes.create_order (env_at 1700000000000) gw_session
                   (create_body [line "A" 50 1; line "B" 30 2]) empty_store) in
  let r2 := Idx2Routes.create_order (env_at 1700000000000) gw_session
              (create_body_of "user_2" [line "C" 40 1]) s1 in
  fst (Idx2Routes.create_order (env_at 1700000000000) gw_session
         (create_body [line "A" 50 1; line "B" 30 2]) empty_store) = fst r2 /\
  fst r2 = Resp 200 order_key /\
  (o_user_id <$> orders (snd r2) !! order_key) = Some (Some "user_2") /\
  map i_item_id (items_of order_key (snd r2)) = [Some "A"; Some "B"; Some "C"].
Proof.
  cbv zeta. split; [|split; [|split]].
  - apply C9_same_millisecond_same_id; vm_compute; reflexivity.
  - vm_compute. reflexivity.
  - vm_compute. reflexivity.
  - vm_compute. reflexivity.
Defined.


End Claims.
